(** * pkg/util/types/pvc.go : volume metadata queries over claims and volumes

    A shallow embedding of the five functions of [pvc.go] and the properties
    of their results.  Go pointers are [option]s ([None] is the nil pointer),
    an [interface{}] value is a tagged union over its dynamic type, the
    [cache.Store] and [kubecli.KubevirtClient] interfaces are records of
    their methods, and a function body runs in a small monad that records
    every call made on a collaborator and stops at a run-time panic. *)

From stdpp Require Import base option list strings gmap.

(** ** The k8s.io/api/core/v1 records read by the package *)

Module k8sv1.

(** Modelled from the spec: the declarations of k8s.io/api/core/v1 are
    imported by pvc.go and are no part of this package.  The three
    enumerations are string types there, so a field may hold any string;
    the constants are the values the package compares against. *)
Definition PersistentVolumeMode := string.
Definition PersistentVolumeAccessMode := string.
Definition PersistentVolumeClaimPhase := string.

Definition PersistentVolumeBlock : PersistentVolumeMode := "Block".
Definition PersistentVolumeFilesystem : PersistentVolumeMode := "Filesystem".
Definition ReadWriteOnce : PersistentVolumeAccessMode := "ReadWriteOnce".
Definition ReadOnlyMany : PersistentVolumeAccessMode := "ReadOnlyMany".
Definition ReadWriteMany : PersistentVolumeAccessMode := "ReadWriteMany".
Definition ClaimPending : PersistentVolumeClaimPhase := "Pending".
Definition ClaimBound : PersistentVolumeClaimPhase := "Bound".
Definition ClaimLost : PersistentVolumeClaimPhase := "Lost".

(** Modelled from the spec: the claim record (section 3), with the fields
    pvc.go reads: Spec.VolumeMode (a pointer), Spec.AccessModes (a slice),
    Spec.VolumeName and Status.Phase. *)
Record PersistentVolumeClaimSpec := {
  AccessModes : list PersistentVolumeAccessMode;
  VolumeName : string;
  VolumeMode : option PersistentVolumeMode
}.

Record PersistentVolumeClaimStatus := {
  Phase : PersistentVolumeClaimPhase
}.

Record PersistentVolumeClaim := {
  pvc_Spec : PersistentVolumeClaimSpec;
  pvc_Status : PersistentVolumeClaimStatus
}.

(** Modelled from the spec: the volume record (section 3); Spec.HostPath is
    a pointer, nil for every other kind of volume source. *)
Record HostPathVolumeSource := {
  Path : string
}.

Record PersistentVolumeSpec := {
  HostPath : option HostPathVolumeSource
}.

Record PersistentVolume := {
  pv_Spec : PersistentVolumeSpec
}.

End k8sv1.

Import k8sv1.

(** ** Untyped objects

    What a store hands back is an [interface{}]: the nil interface, a
    pointer to a claim, a pointer to a volume, or a value of some other
    dynamic type.  A pointer held in an interface may itself be nil. *)
Inductive object :=
  | nil_interface
  | ptr_PersistentVolumeClaim (p : option PersistentVolumeClaim)
  | ptr_PersistentVolume (p : option PersistentVolume)
  | other_object (descr : string).

(** The type assertion of [obj] to a claim pointer, in its two-result
    form: the pointer and [ok]; on a mismatch the pointer is the zero
    value, nil. *)
Definition assert_PersistentVolumeClaim (obj : object)
  : option PersistentVolumeClaim * bool :=
  match obj with
  | ptr_PersistentVolumeClaim p => (p, true)
  | _ => (None, false)
  end.

(** The type assertion of [obj] to a volume pointer, two-result form. *)
Definition assert_PersistentVolume (obj : object)
  : option PersistentVolume * bool :=
  match obj with
  | ptr_PersistentVolume p => (p, true)
  | _ => (None, false)
  end.

(** ** What the Go libraries provide

    Modelled from the spec: Go's [error] values, [fmt.Errorf], the [%v]
    rendering of an object and [errors.IsNotFound] of
    k8s.io/apimachinery live outside this package.  A nil [error] is
    [None]; [IsNotFound] answers false on it. *)
Class GoLibs := {
  error : Type;
  Errorf : string → error;
  Sprint_v : object → string;
  IsNotFound : option error → bool;
  IsNotFound_nil : IsNotFound None = false
}.

(** How a function body ends: it returns its results, or the run-time
    panics on a nil pointer dereference. *)
Inductive outcome (A : Type) :=
  | Returns (a : A)
  | Panics_nil_dereference.

Arguments Returns {A} a.
Arguments Panics_nil_dereference {A}.

Section Pvc.

Context `{GoLibs}.

(** ** The two collaborators *)

(** [cache.Store], reduced to the method the package calls:
    [GetByKey(key) (item interface{}, exists bool, err error)].  A query
    reads one snapshot of the store, so the method is a function of the
    key. *)
Record Store := {
  GetByKey : string → object * bool * option error
}.

(** [kubecli.KubevirtClient], reduced to the call chain
    [CoreV1().PersistentVolumeClaims(namespace).Get(ctx, name, opts)]. *)
Record KubevirtClient := {
  PersistentVolumeClaims_Get :
    string → string → option PersistentVolumeClaim * option error
}.

(** ** Running a function body *)

Inductive event :=
  | Store_GetByKey (store : Store) (key : string)
  | Client_Get (client : KubevirtClient) (namespace name : string).

(** The calls made so far, oldest first, and how the body ended. *)
Definition go (A : Type) : Type := list event * outcome A.

#[export] Instance go_ret : MRet go := λ A a, ([], Returns a).

#[export] Instance go_bind : MBind go := λ A B f m,
  match m with
  | (t, Returns a) => let '(t', r) := f a in (t ++ t', r)
  | (t, Panics_nil_dereference) => (t, Panics_nil_dereference)
  end.

(** Reading a field through a pointer: a nil pointer panics. *)
Definition deref {A} (p : option A) : go A :=
  match p with
  | Some a => mret a
  | None => ([], Panics_nil_dereference)
  end.

Definition call_GetByKey (store : Store) (key : string)
  : go (object * bool * option error) :=
  ([Store_GetByKey store key], Returns (GetByKey store key)).

Definition call_Get (client : KubevirtClient) (namespace name : string)
  : go (option PersistentVolumeClaim * option error) :=
  ([Client_Get client namespace name],
   Returns (PersistentVolumeClaims_Get client namespace name)).

Definition trace {A} (m : go A) : list event := m.1.
Definition result {A} (m : go A) : outcome A := m.2.

(** ** The functions of pvc.go *)

(** [isPVCBlock]:
    [pvc.Spec.VolumeMode != nil && *pvc.Spec.VolumeMode == PersistentVolumeBlock] *)
Definition isPVCBlock (pvc : option PersistentVolumeClaim) : go bool :=
  c ← deref pvc;
  mret (match VolumeMode (pvc_Spec c) with
        | None => false
        | Some mode => bool_decide (mode = PersistentVolumeBlock)
        end).

(** The [range] loop of [IsPVCShared] over the access modes: return true at
    the first element equal to [ReadWriteMany], false when the slice is
    exhausted. *)
Fixpoint range_AccessModes (modes : list PersistentVolumeAccessMode) : bool :=
  match modes with
  | [] => false
  | accessMode :: rest =>
      if bool_decide (accessMode = ReadWriteMany) then true
      else range_AccessModes rest
  end.

Definition IsPVCShared (pvc : option PersistentVolumeClaim) : go bool :=
  c ← deref pvc;
  mret (range_AccessModes (AccessModes (pvc_Spec c))).

(** [IsPVCBlockFromStore]; the result is [(pvc, exists, isBlockDevice, err)]. *)
Definition IsPVCBlockFromStore (store : Store) (namespace claimName : string)
  : go (option PersistentVolumeClaim * bool * bool * option error) :=
  '(obj, exists_, err) ← call_GetByKey store (namespace +:+ "/" +:+ claimName);
  if bool_decide (err ≠ None) || negb exists_ then
    mret (None, exists_, false, err)
  else
    let '(pvc, ok) := assert_PersistentVolumeClaim obj in
    if ok then
      isBlock ← isPVCBlock pvc;
      mret (pvc, true, isBlock, None)
    else
      mret (None, false, false,
            Some (Errorf ("this is not a PVC! " +:+ Sprint_v obj))).

(** [IsPVCBlockFromClient]. *)
Definition IsPVCBlockFromClient (client : KubevirtClient)
    (namespace claimName : string)
  : go (option PersistentVolumeClaim * bool * bool * option error) :=
  '(pvc, err) ← call_Get client namespace claimName;
  if IsNotFound err then
    mret (None, false, false, None)
  else if bool_decide (err ≠ None) then
    mret (None, false, false, err)
  else
    isBlock ← isPVCBlock pvc;
    mret (pvc, true, isBlock, None).

(** [IsSharedPVCFromClient]; the named results [(pvc, isShared, err)] are
    returned as they stand: [isShared] keeps its zero value unless the
    fetch succeeded. *)
Definition IsSharedPVCFromClient (client : KubevirtClient)
    (namespace claimName : string)
  : go (option PersistentVolumeClaim * bool * option error) :=
  '(pvc, err) ← call_Get client namespace claimName;
  if bool_decide (err = None) then
    isShared ← IsPVCShared pvc;
    mret (pvc, isShared, err)
  else
    mret (pvc, false, err).

(** [GetPVCHostPathFromStore]; the result is [(path, err)]. *)
Definition GetPVCHostPathFromStore (pvcStore pvStore : Store)
    (namespace claimName : string) : go (string * option error) :=
  '(obj, exists_, err) ← call_GetByKey pvcStore (namespace +:+ "/" +:+ claimName);
  if bool_decide (err ≠ None) then mret ("", err)
  else if negb exists_ then
    mret ("", Some (Errorf ("Unable to find PVC " +:+ namespace +:+ "/" +:+ claimName)))
  else
    let pvc := if (assert_PersistentVolumeClaim obj).2
               then (assert_PersistentVolumeClaim obj).1 else None in
    claim ← deref pvc;
    if bool_decide (Phase (pvc_Status claim) = ClaimBound)
       && bool_decide (VolumeName (pvc_Spec claim) ≠ "") then
      '(obj, exists_, err) ← call_GetByKey pvStore (VolumeName (pvc_Spec claim));
      if bool_decide (err ≠ None) then mret ("", err)
      else if negb exists_ then
        mret ("", Some (Errorf ("Unable to find PV " +:+ VolumeName (pvc_Spec claim))))
      else
        let pv := if (assert_PersistentVolume obj).2
                  then (assert_PersistentVolume obj).1 else None in
        volume ← deref pv;
        match HostPath (pv_Spec volume) with
        | Some hostPath => mret (Path hostPath, None)
        | None => mret ("", None)
        end
    else
      mret ("", None).

End Pvc.

(** ** A map-backed store and sample libraries, for running the functions *)

Module Sample.

Inductive sample_error :=
  | errorString (msg : string)
  | StatusError (reason : string) (msg : string).

Definition sample_Sprint_v (obj : object) : string :=
  match obj with
  | nil_interface => "<nil>"
  | ptr_PersistentVolumeClaim None | ptr_PersistentVolume None => "<nil>"
  | ptr_PersistentVolumeClaim (Some _) => "&{claim}"
  | ptr_PersistentVolume (Some _) => "&{volume}"
  | other_object descr => descr
  end.

Definition sample_IsNotFound (err : option sample_error) : bool :=
  match err with
  | Some (StatusError reason _) => bool_decide (reason = "NotFound")
  | _ => false
  end.

#[export] Instance libs : GoLibs := {|
  error := sample_error;
  Errorf := errorString;
  Sprint_v := sample_Sprint_v;
  IsNotFound := sample_IsNotFound;
  IsNotFound_nil := eq_refl
|}.

(** A store over a finite map from keys to objects, as an informer's
    indexer is: a lookup never errors, and reports whether the key is there. *)
Definition mapStore (items : gmap string object) : Store := {|
  GetByKey key :=
    match items !! key with
    | Some obj => (obj, true, None)
    | None => (nil_interface, false, None)
    end
|}.

(** A store whose every lookup fails. *)
Definition brokenStore (e : sample_error) : Store := {|
  GetByKey _ := (nil_interface, false, Some e)
|}.

(** A client over a finite map from (namespace, name) to claims; a missing
    claim is reported as a NotFound status error. *)
Definition mapClient (claims : gmap (string * string) PersistentVolumeClaim)
  : KubevirtClient := {|
  PersistentVolumeClaims_Get namespace name :=
    match claims !! (namespace, name) with
    | Some c => (Some c, None)
    | None => (None, Some (StatusError "NotFound" name))
    end
|}.

(** A client whose every call fails with the given error. *)
Definition failingClient (e : sample_error) : KubevirtClient := {|
  PersistentVolumeClaims_Get _ _ := (None, Some e)
|}.

Definition claim (mode : option PersistentVolumeMode)
    (modes : list PersistentVolumeAccessMode)
    (phase : PersistentVolumeClaimPhase) (volume : string)
  : PersistentVolumeClaim := {|
  pvc_Spec := {| AccessModes := modes; VolumeName := volume; VolumeMode := mode |};
  pvc_Status := {| Phase := phase |}
|}.

Definition hostPathVolume (path : string) : PersistentVolume :=
  {| pv_Spec := {| HostPath := Some {| Path := path |} |} |}.

Definition otherVolume : PersistentVolume :=
  {| pv_Spec := {| HostPath := None |} |}.

Definition c1 := claim None [ReadWriteOnce] ClaimBound "v1".
Definition c2 := claim (Some PersistentVolumeBlock) [ReadWriteOnce; ReadWriteMany] ClaimPending "".

Definition claims : gmap string object :=
  {[ "ns/c1" := ptr_PersistentVolumeClaim (Some c1);
     "ns/c2" := ptr_PersistentVolumeClaim (Some c2);
     "ns/odd" := other_object "not a claim" ]}.

Definition volumes : gmap string object :=
  {[ "v1" := ptr_PersistentVolume (Some (hostPathVolume "/data/x")) ]}.

End Sample.

(** The end-to-end scenarios of the host-path query. *)
Example host_path_found :
  result (GetPVCHostPathFromStore (Sample.mapStore Sample.claims)
            (Sample.mapStore Sample.volumes) "ns" "c1")
  = Returns ("/data/x", None).
Proof. vm_compute. reflexivity. Qed.

Example host_path_other_source :
  result (GetPVCHostPathFromStore (Sample.mapStore Sample.claims)
            (Sample.mapStore {[ "v1" := ptr_PersistentVolume (Some Sample.otherVolume) ]})
            "ns" "c1")
  = Returns ("", None).
Proof. vm_compute. reflexivity. Qed.

Example host_path_pending :
  GetPVCHostPathFromStore (Sample.mapStore Sample.claims)
    (Sample.mapStore Sample.volumes) "ns" "c2"
  = ([Store_GetByKey (Sample.mapStore Sample.claims) "ns/c2"], Returns ("", None)).
Proof. reflexivity. Qed.

Example host_path_missing_claim :
  result (GetPVCHostPathFromStore (Sample.mapStore Sample.claims)
            (Sample.mapStore Sample.volumes) "ns" "c3")
  = Returns ("", Some (Sample.errorString "Unable to find PVC ns/c3")).
Proof. vm_compute. reflexivity. Qed.

(** ** Properties of the two predicates *)

Section Predicates.

Context `{GoLibs}.

Lemma VolumeMode_is_Block (field : option PersistentVolumeMode) :
  match field with
  | None => false
  | Some mode => bool_decide (mode = PersistentVolumeBlock)
  end = bool_decide (field = Some PersistentVolumeBlock).
Proof.
  destruct field as [mode|]; [|done].
  apply bool_decide_ext. split; [by intros -> | by intros [= ->]].
Qed.

Lemma isPVCBlock_eval (c : PersistentVolumeClaim) :
  isPVCBlock (Some c)
  = mret (bool_decide (VolumeMode (pvc_Spec c) = Some PersistentVolumeBlock)).
Proof. unfold isPVCBlock; simpl. by rewrite VolumeMode_is_Block. Qed.

Lemma range_AccessModes_spec (modes : list PersistentVolumeAccessMode) :
  range_AccessModes modes = true ↔ ReadWriteMany ∈ modes.
Proof.
  induction modes as [|m modes IH]; simpl.
  - split; [done | by intros ?%elem_of_nil].
  - case_bool_decide as Hm.
    + subst m. split; [intros _; apply list_elem_of_here | done].
    + rewrite IH, elem_of_cons.
      split; [by right | intros [Heq|Hin]; [congruence | done]].
Qed.

Lemma range_AccessModes_false (modes : list PersistentVolumeAccessMode) :
  range_AccessModes modes = false ↔ ReadWriteMany ∉ modes.
Proof.
  rewrite <- range_AccessModes_spec. destruct (range_AccessModes modes); naive_solver.
Qed.

(** The answer of the loop is the same for every ordering of the slice. *)
Lemma range_AccessModes_Permutation (l1 l2 : list PersistentVolumeAccessMode) :
  l1 ≡ₚ l2 → range_AccessModes l1 = range_AccessModes l2.
Proof.
  intros Hp. apply eq_true_iff_eq.
  rewrite !range_AccessModes_spec. by rewrite Hp.
Qed.

(** C5. [isPVCBlock] makes no call on a collaborator and, on every claim
    record, returns true if and only if the volume-mode field is present
    and equals Block; with the field absent, or holding any other value
    such as Filesystem, it returns false. *)
Theorem isPVCBlock_true_iff_Block (c : PersistentVolumeClaim) :
  (isPVCBlock (Some c) = ([], Returns true)
   ↔ VolumeMode (pvc_Spec c) = Some PersistentVolumeBlock)
  ∧ (isPVCBlock (Some c) = ([], Returns false)
     ↔ VolumeMode (pvc_Spec c) ≠ Some PersistentVolumeBlock)
  ∧ (VolumeMode (pvc_Spec c) = None → isPVCBlock (Some c) = ([], Returns false))
  ∧ (∀ mode, VolumeMode (pvc_Spec c) = Some mode → mode ≠ PersistentVolumeBlock →
       isPVCBlock (Some c) = ([], Returns false))
  ∧ (VolumeMode (pvc_Spec c) = Some PersistentVolumeFilesystem →
       isPVCBlock (Some c) = ([], Returns false)).
Proof.
  rewrite isPVCBlock_eval. unfold mret, go_ret.
  split_and!.
  - case_bool_decide; naive_solver.
  - case_bool_decide; naive_solver.
  - intros ->. done.
  - intros mode -> Hne. rewrite bool_decide_eq_false_2; [done | congruence].
  - intros ->. done.
Qed.

(** C6. [IsPVCShared] returns true if and only if the access-modes list of
    the claim contains ReadWriteMany, wherever it stands and whatever the
    length of the list; on every list without it, the empty one included,
    it returns false. *)
Theorem IsPVCShared_true_iff_ReadWriteMany (c : PersistentVolumeClaim) :
  (IsPVCShared (Some c) = ([], Returns true)
   ↔ ReadWriteMany ∈ AccessModes (pvc_Spec c))
  ∧ (IsPVCShared (Some c) = ([], Returns false)
     ↔ ReadWriteMany ∉ AccessModes (pvc_Spec c))
  ∧ (∀ before after,
       AccessModes (pvc_Spec c) = before ++ ReadWriteMany :: after →
       IsPVCShared (Some c) = ([], Returns true))
  ∧ (AccessModes (pvc_Spec c) = [] → IsPVCShared (Some c) = ([], Returns false)).
Proof.
  assert (Hrun : ∀ b, IsPVCShared (Some c) = ([], Returns b)
                      ↔ range_AccessModes (AccessModes (pvc_Spec c)) = b).
  { intros b. unfold IsPVCShared; simpl. unfold mret, go_ret.
    split; [by intros [= ->] | by intros ->]. }
  split_and!.
  - by rewrite Hrun, range_AccessModes_spec.
  - by rewrite Hrun, range_AccessModes_false.
  - intros before after Heq. apply Hrun, range_AccessModes_spec.
    rewrite Heq. apply elem_of_app. right. apply list_elem_of_here.
  - intros Heq. apply Hrun. by rewrite Heq.
Qed.

End Predicates.

(** ** Properties of the three queries that locate a claim *)

Section Queries.

Context `{GoLibs}.

Implicit Types (store : Store) (client : KubevirtClient).
Implicit Types (namespace claimName : string) (obj : object).
Implicit Types (c : PersistentVolumeClaim) (pvc : option PersistentVolumeClaim).
Implicit Types (err : option error) (e : error).

(** The store-backed query, one case per way the lookup can end. *)
Lemma IsPVCBlockFromStore_lookup_error store namespace claimName obj found e :
  GetByKey store (namespace +:+ "/" +:+ claimName) = (obj, found, Some e) →
  IsPVCBlockFromStore store namespace claimName
  = ([Store_GetByKey store (namespace +:+ "/" +:+ claimName)],
     Returns (None, found, false, Some e)).
Proof. intros Hget. unfold IsPVCBlockFromStore, call_GetByKey. simpl. by rewrite Hget. Qed.

Lemma IsPVCBlockFromStore_found store namespace claimName c :
  GetByKey store (namespace +:+ "/" +:+ claimName)
  = (ptr_PersistentVolumeClaim (Some c), true, None) →
  IsPVCBlockFromStore store namespace claimName
  = ([Store_GetByKey store (namespace +:+ "/" +:+ claimName)],
     Returns (Some c, true,
              bool_decide (VolumeMode (pvc_Spec c) = Some PersistentVolumeBlock),
              None)).
Proof.
  intros Hget. unfold IsPVCBlockFromStore, call_GetByKey. simpl. rewrite Hget. simpl.
  by rewrite VolumeMode_is_Block.
Qed.

(** A typed nil pointer passes the type assertion, and [isPVCBlock] then
    reads a field through it. *)
Lemma IsPVCBlockFromStore_nil_pointer store namespace claimName :
  GetByKey store (namespace +:+ "/" +:+ claimName)
  = (ptr_PersistentVolumeClaim None, true, None) →
  result (IsPVCBlockFromStore store namespace claimName) = Panics_nil_dereference.
Proof.
  intros Hget. unfold IsPVCBlockFromStore, call_GetByKey. simpl. by rewrite Hget.
Qed.

(** The client-backed query, one case per way the fetch can end. *)
Lemma IsPVCBlockFromClient_found client namespace claimName c :
  PersistentVolumeClaims_Get client namespace claimName = (Some c, None) →
  IsPVCBlockFromClient client namespace claimName
  = ([Client_Get client namespace claimName],
     Returns (Some c, true,
              bool_decide (VolumeMode (pvc_Spec c) = Some PersistentVolumeBlock),
              None)).
Proof.
  intros Hget. unfold IsPVCBlockFromClient, call_Get. simpl. rewrite Hget.
  rewrite IsNotFound_nil. simpl. by rewrite VolumeMode_is_Block.
Qed.

Lemma IsPVCBlockFromClient_other_error client namespace claimName pvc e :
  PersistentVolumeClaims_Get client namespace claimName = (pvc, Some e) →
  IsNotFound (Some e) = false →
  IsPVCBlockFromClient client namespace claimName
  = ([Client_Get client namespace claimName], Returns (None, false, false, Some e)).
Proof.
  intros Hget Hnf. unfold IsPVCBlockFromClient, call_Get. simpl. rewrite Hget.
  by rewrite Hnf.
Qed.

(** C2. When the store lookup for the key "ns/n" yields the claim record
    [c] with exists = true and no error, and the client fetch for (ns, n)
    yields the same record with no error, [IsPVCBlockFromStore] and
    [IsPVCBlockFromClient] return the same quadruple
    (c, true, isPVCBlock(c), nil). *)
Theorem block_queries_agree store client namespace claimName c :
  GetByKey store (namespace +:+ "/" +:+ claimName)
  = (ptr_PersistentVolumeClaim (Some c), true, None) →
  PersistentVolumeClaims_Get client namespace claimName = (Some c, None) →
  ∃ isBlock,
    isPVCBlock (Some c) = ([], Returns isBlock)
    ∧ result (IsPVCBlockFromStore store namespace claimName)
      = Returns (Some c, true, isBlock, None)
    ∧ result (IsPVCBlockFromClient client namespace claimName)
      = Returns (Some c, true, isBlock, None).
Proof.
  intros Hstore Hclient.
  exists (bool_decide (VolumeMode (pvc_Spec c) = Some PersistentVolumeBlock)).
  rewrite isPVCBlock_eval.
  rewrite (IsPVCBlockFromStore_found _ _ _ _ Hstore).
  rewrite (IsPVCBlockFromClient_found _ _ _ _ Hclient).
  done.
Qed.

(** C7. Whenever the client fetch ends with a non-nil error, NotFound or
    any other, [IsSharedPVCFromClient] returns that same error with
    isShared = false, after the one fetch. *)
Theorem IsSharedPVCFromClient_propagates_error client namespace claimName pvc e :
  PersistentVolumeClaims_Get client namespace claimName = (pvc, Some e) →
  IsSharedPVCFromClient client namespace claimName
  = ([Client_Get client namespace claimName], Returns (pvc, false, Some e)).
Proof.
  intros Hget. unfold IsSharedPVCFromClient, call_Get. simpl. by rewrite Hget.
Qed.

(** C8. A claim that is absent is no error for the two block-mode queries:
    when the store reports no entry under "ns/name" and no lookup error,
    [IsPVCBlockFromStore] returns (nil, false, false, nil); when the client
    reports an error that [IsNotFound] recognises, [IsPVCBlockFromClient]
    returns (nil, false, false, nil). *)
Theorem absent_claim_is_benign namespace claimName :
  (∀ store obj,
     GetByKey store (namespace +:+ "/" +:+ claimName) = (obj, false, None) →
     IsPVCBlockFromStore store namespace claimName
     = ([Store_GetByKey store (namespace +:+ "/" +:+ claimName)],
        Returns (None, false, false, None)))
  ∧ (∀ client pvc err,
       PersistentVolumeClaims_Get client namespace claimName = (pvc, err) →
       IsNotFound err = true →
       IsPVCBlockFromClient client namespace claimName
       = ([Client_Get client namespace claimName],
          Returns (None, false, false, None))).
Proof.
  split.
  - intros store obj Hget. unfold IsPVCBlockFromStore, call_GetByKey. simpl.
    by rewrite Hget.
  - intros client pvc err Hget Hnf. unfold IsPVCBlockFromClient, call_Get. simpl.
    rewrite Hget. by rewrite Hnf.
Qed.

(** C9. When the store lookup under "ns/name" succeeds (exists = true, no
    error) with an object whose type is not that of a claim pointer,
    [IsPVCBlockFromStore] returns the error built from
    "this is not a PVC! " and the rendering of that object, with
    exists = false and a nil claim. *)
Theorem IsPVCBlockFromStore_type_mismatch store namespace claimName obj :
  GetByKey store (namespace +:+ "/" +:+ claimName) = (obj, true, None) →
  (∀ p, obj ≠ ptr_PersistentVolumeClaim p) →
  IsPVCBlockFromStore store namespace claimName
  = ([Store_GetByKey store (namespace +:+ "/" +:+ claimName)],
     Returns (None, false, false,
              Some (Errorf ("this is not a PVC! " +:+ Sprint_v obj)))).
Proof.
  intros Hget Hty. unfold IsPVCBlockFromStore, call_GetByKey. simpl. rewrite Hget.
  simpl. destruct obj as [|p| |]; try done. by destruct (Hty p).
Qed.

End Queries.

(** ** Properties of the host-path query *)

Section HostPath.

Context `{GoLibs}.

Implicit Types (pvcStore pvStore : Store).
Implicit Types (namespace claimName : string) (obj : object).
Implicit Types (c : PersistentVolumeClaim) (v : PersistentVolume).
Implicit Types (err : option error) (e : error).

(** Unfold the query and replace each lookup by what the hypotheses say it
    yields. *)
Ltac run_query :=
  unfold GetPVCHostPathFromStore, call_GetByKey; simpl;
  repeat match goal with
         | Hget : GetByKey ?s ?k = _ |- context [GetByKey ?s ?k] =>
             rewrite Hget; simpl
         | Hphase : Phase _ = ClaimBound |- _ => rewrite Hphase; simpl
         | Hname : VolumeName _ ≠ "" |- _ =>
             rewrite (bool_decide_eq_true_2 _ Hname); simpl
         end.

(** *** The claim lookup *)

Lemma claim_lookup_error pvcStore pvStore namespace claimName obj found e :
  GetByKey pvcStore (namespace +:+ "/" +:+ claimName) = (obj, found, Some e) →
  GetPVCHostPathFromStore pvcStore pvStore namespace claimName
  = ([Store_GetByKey pvcStore (namespace +:+ "/" +:+ claimName)],
     Returns ("", Some e)).
Proof. intros Hget. by run_query. Qed.

Lemma claim_missing pvcStore pvStore namespace claimName obj :
  GetByKey pvcStore (namespace +:+ "/" +:+ claimName) = (obj, false, None) →
  GetPVCHostPathFromStore pvcStore pvStore namespace claimName
  = ([Store_GetByKey pvcStore (namespace +:+ "/" +:+ claimName)],
     Returns ("", Some (Errorf ("Unable to find PVC " +:+ namespace +:+ "/"
                                  +:+ claimName)))).
Proof. intros Hget. by run_query. Qed.

(** An object of another type leaves [pvc] nil, and reading
    [pvc.Status.Phase] panics. *)
Lemma claim_type_mismatch pvcStore pvStore namespace claimName obj :
  GetByKey pvcStore (namespace +:+ "/" +:+ claimName) = (obj, true, None) →
  (∀ p, obj ≠ ptr_PersistentVolumeClaim p) →
  GetPVCHostPathFromStore pvcStore pvStore namespace claimName
  = ([Store_GetByKey pvcStore (namespace +:+ "/" +:+ claimName)],
     Panics_nil_dereference).
Proof.
  intros Hget Hty. run_query.
  destruct obj as [|p| |]; try done. by destruct (Hty p).
Qed.

Lemma claim_nil_pointer pvcStore pvStore namespace claimName :
  GetByKey pvcStore (namespace +:+ "/" +:+ claimName)
  = (ptr_PersistentVolumeClaim None, true, None) →
  GetPVCHostPathFromStore pvcStore pvStore namespace claimName
  = ([Store_GetByKey pvcStore (namespace +:+ "/" +:+ claimName)],
     Panics_nil_dereference).
Proof. intros Hget. by run_query. Qed.

(** *** The phase test *)

Lemma claim_not_bound pvcStore pvStore namespace claimName c :
  GetByKey pvcStore (namespace +:+ "/" +:+ claimName)
  = (ptr_PersistentVolumeClaim (Some c), true, None) →
  Phase (pvc_Status c) ≠ ClaimBound ∨ VolumeName (pvc_Spec c) = "" →
  GetPVCHostPathFromStore pvcStore pvStore namespace claimName
  = ([Store_GetByKey pvcStore (namespace +:+ "/" +:+ claimName)],
     Returns ("", None)).
Proof.
  intros Hget [Hphase|Hname]; run_query.
  - by rewrite (bool_decide_eq_false_2 _ Hphase).
  - rewrite Hname. by rewrite andb_false_r.
Qed.

(** *** The volume lookup, for a bound claim *)

Section Bound.

Variables (pvcStore pvStore : Store) (namespace claimName : string).
Variable c : PersistentVolumeClaim.

Hypothesis claim_found :
  GetByKey pvcStore (namespace +:+ "/" +:+ claimName)
  = (ptr_PersistentVolumeClaim (Some c), true, None).
Hypothesis claim_bound : Phase (pvc_Status c) = ClaimBound.
Hypothesis claim_volume : VolumeName (pvc_Spec c) ≠ "".

#[local] Abbreviation two_lookups :=
  [Store_GetByKey pvcStore (namespace +:+ "/" +:+ claimName);
   Store_GetByKey pvStore (VolumeName (pvc_Spec c))].

Lemma volume_lookup_error obj found e :
  GetByKey pvStore (VolumeName (pvc_Spec c)) = (obj, found, Some e) →
  GetPVCHostPathFromStore pvcStore pvStore namespace claimName
  = (two_lookups, Returns ("", Some e)).
Proof. intros Hpv. by run_query. Qed.

Lemma volume_missing obj :
  GetByKey pvStore (VolumeName (pvc_Spec c)) = (obj, false, None) →
  GetPVCHostPathFromStore pvcStore pvStore namespace claimName
  = (two_lookups,
     Returns ("", Some (Errorf ("Unable to find PV " +:+ VolumeName (pvc_Spec c))))).
Proof. intros Hpv. by run_query. Qed.

(** An object of another type leaves [pv] nil, and reading
    [pv.Spec.HostPath] panics. *)
Lemma volume_type_mismatch obj :
  GetByKey pvStore (VolumeName (pvc_Spec c)) = (obj, true, None) →
  (∀ p, obj ≠ ptr_PersistentVolume p) →
  GetPVCHostPathFromStore pvcStore pvStore namespace claimName
  = (two_lookups, Panics_nil_dereference).
Proof.
  intros Hpv Hty. run_query.
  destruct obj as [| |p|]; try done. by destruct (Hty p).
Qed.

Lemma volume_host_path v hostPath :
  GetByKey pvStore (VolumeName (pvc_Spec c))
  = (ptr_PersistentVolume (Some v), true, None) →
  HostPath (pv_Spec v) = Some hostPath →
  GetPVCHostPathFromStore pvcStore pvStore namespace claimName
  = (two_lookups, Returns (Path hostPath, None)).
Proof. intros Hpv Hhp. run_query. by rewrite Hhp. Qed.

Lemma volume_other_source v :
  GetByKey pvStore (VolumeName (pvc_Spec c))
  = (ptr_PersistentVolume (Some v), true, None) →
  HostPath (pv_Spec v) = None →
  GetPVCHostPathFromStore pvcStore pvStore namespace claimName
  = (two_lookups, Returns ("", None)).
Proof. intros Hpv Hhp. run_query. by rewrite Hhp. Qed.

End Bound.

(** A path that is not empty comes from the host-path source of the volume
    the bound claim names, and from nowhere else. *)
Lemma path_returned_inv pvcStore pvStore namespace claimName path err :
  result (GetPVCHostPathFromStore pvcStore pvStore namespace claimName)
  = Returns (path, err) →
  path ≠ "" →
  err = None
  ∧ ∃ c v hostPath,
      GetByKey pvcStore (namespace +:+ "/" +:+ claimName)
      = (ptr_PersistentVolumeClaim (Some c), true, None)
      ∧ Phase (pvc_Status c) = ClaimBound
      ∧ VolumeName (pvc_Spec c) ≠ ""
      ∧ GetByKey pvStore (VolumeName (pvc_Spec c))
        = (ptr_PersistentVolume (Some v), true, None)
      ∧ HostPath (pv_Spec v) = Some hostPath
      ∧ Path hostPath = path.
Proof.
  unfold GetPVCHostPathFromStore, call_GetByKey, result. simpl.
  destruct (GetByKey pvcStore _) as [[obj found] err1] eqn:Hpvc.
  destruct err1 as [e1|]; simpl; [by intros [= <- <-]|].
  destruct found; simpl; [|by intros [= <- <-]].
  destruct obj as [|[c|]|pv|d]; simpl; try done.
  destruct (bool_decide (Phase (pvc_Status c) = ClaimBound)) eqn:Hphase; simpl;
    [|by intros [= <- <-]].
  destruct (bool_decide (VolumeName (pvc_Spec c) ≠ "")) eqn:Hname; simpl;
    [|by intros [= <- <-]].
  apply bool_decide_eq_true_1 in Hphase, Hname.
  destruct (GetByKey pvStore _) as [[obj found] err2] eqn:Hpv.
  destruct err2 as [e2|]; simpl; [by intros [= <- <-]|].
  destruct found; simpl; [|by intros [= <- <-]].
  destruct obj as [|pvc|[v|]|d]; simpl; try done.
  destruct (HostPath (pv_Spec v)) as [hostPath|] eqn:Hhp; simpl;
    [|by intros [= <- <-]].
  intros [= <- <-] _. split; [done|]. by exists c, v, hostPath.
Qed.

(** C3. When the claim lookup yields a claim record: with the phase Bound,
    a bound-volume-name that is not empty and a volume record under that
    name carrying a host-path source, the query returns that path and a
    nil error, and a non-empty path is returned in no other case; with a
    phase other than Bound or an empty bound-volume-name it returns
    ("", nil) after the claim lookup alone, whatever the volume store
    holds; with a volume record of any other source kind it returns
    ("", nil). *)
Theorem host_path_resolution pvcStore pvStore namespace claimName c :
  GetByKey pvcStore (namespace +:+ "/" +:+ claimName)
  = (ptr_PersistentVolumeClaim (Some c), true, None) →
  (∀ v hostPath,
     Phase (pvc_Status c) = ClaimBound →
     VolumeName (pvc_Spec c) ≠ "" →
     GetByKey pvStore (VolumeName (pvc_Spec c))
     = (ptr_PersistentVolume (Some v), true, None) →
     HostPath (pv_Spec v) = Some hostPath →
     result (GetPVCHostPathFromStore pvcStore pvStore namespace claimName)
     = Returns (Path hostPath, None))
  ∧ (∀ path err,
       result (GetPVCHostPathFromStore pvcStore pvStore namespace claimName)
       = Returns (path, err) →
       path ≠ "" →
       err = None
       ∧ Phase (pvc_Status c) = ClaimBound
       ∧ VolumeName (pvc_Spec c) ≠ ""
       ∧ ∃ v hostPath,
           GetByKey pvStore (VolumeName (pvc_Spec c))
           = (ptr_PersistentVolume (Some v), true, None)
           ∧ HostPath (pv_Spec v) = Some hostPath
           ∧ Path hostPath = path)
  ∧ (Phase (pvc_Status c) ≠ ClaimBound ∨ VolumeName (pvc_Spec c) = "" →
     GetPVCHostPathFromStore pvcStore pvStore namespace claimName
     = ([Store_GetByKey pvcStore (namespace +:+ "/" +:+ claimName)],
        Returns ("", None)))
  ∧ (∀ v,
       Phase (pvc_Status c) = ClaimBound →
       VolumeName (pvc_Spec c) ≠ "" →
       GetByKey pvStore (VolumeName (pvc_Spec c))
       = (ptr_PersistentVolume (Some v), true, None) →
       HostPath (pv_Spec v) = None →
       result (GetPVCHostPathFromStore pvcStore pvStore namespace claimName)
       = Returns ("", None)).
Proof.
  intros Hpvc. split_and!.
  - intros v hostPath Hphase Hname Hpv Hhp.
    by rewrite (volume_host_path _ _ _ _ _ Hpvc Hphase Hname _ _ Hpv Hhp).
  - intros path err Hres Hpath.
    destruct (path_returned_inv _ _ _ _ _ _ Hres Hpath)
      as (-> & c' & v & hostPath & Hpvc' & Hphase & Hname & Hpv & Hhp & Heq).
    rewrite Hpvc in Hpvc'. injection Hpvc' as <-.
    split_and!; try done. by exists v, hostPath.
  - intros Hunbound. by apply claim_not_bound with c.
  - intros v Hphase Hname Hpv Hhp.
    by rewrite (volume_other_source _ _ _ _ _ Hpvc Hphase Hname _ Hpv Hhp).
Qed.

(** C4. Absence is an error at both lookups of the host-path query: when
    the claim lookup errors or reports the key missing, and when the claim
    is Bound with a non-empty bound-volume-name and the volume lookup
    errors or reports the name missing, the query returns an empty path
    with a non-nil error: the error of the lookup, or else
    "Unable to find PVC <namespace>/<name>", resp.
    "Unable to find PV <volume>". *)
Theorem absence_is_hard_failure pvcStore pvStore namespace claimName :
  (∀ obj found err,
     GetByKey pvcStore (namespace +:+ "/" +:+ claimName) = (obj, found, err) →
     err ≠ None ∨ found = false →
     result (GetPVCHostPathFromStore pvcStore pvStore namespace claimName)
     = Returns ("", Some (default
                  (Errorf ("Unable to find PVC " +:+ namespace +:+ "/" +:+ claimName))
                  err)))
  ∧ (∀ c obj found err,
       GetByKey pvcStore (namespace +:+ "/" +:+ claimName)
       = (ptr_PersistentVolumeClaim (Some c), true, None) →
       Phase (pvc_Status c) = ClaimBound →
       VolumeName (pvc_Spec c) ≠ "" →
       GetByKey pvStore (VolumeName (pvc_Spec c)) = (obj, found, err) →
       err ≠ None ∨ found = false →
       result (GetPVCHostPathFromStore pvcStore pvStore namespace claimName)
       = Returns ("", Some (default
                    (Errorf ("Unable to find PV " +:+ VolumeName (pvc_Spec c)))
                    err))).
Proof.
  split.
  - intros obj found [e|] Hpvc Habsent.
    + by rewrite (claim_lookup_error _ pvStore _ _ _ _ _ Hpvc).
    + destruct Habsent as [Herr | ->]; [done|].
      by rewrite (claim_missing _ pvStore _ _ _ Hpvc).
  - intros c obj found [e|] Hpvc Hphase Hname Hpv Habsent.
    + by rewrite (volume_lookup_error _ _ _ _ _ Hpvc Hphase Hname _ _ _ Hpv).
    + destruct Habsent as [Herr | ->]; [done|].
      by rewrite (volume_missing _ _ _ _ _ Hpvc Hphase Hname _ Hpv).
Qed.

(** C10. The host-path query never returns a path together with an error:
    whenever the returned error is non-nil, the returned path is the empty
    string. *)
Theorem error_implies_empty_path pvcStore pvStore namespace claimName path e :
  result (GetPVCHostPathFromStore pvcStore pvStore namespace claimName)
  = Returns (path, Some e) →
  path = "".
Proof.
  intros Hres. destruct (decide (path = "")) as [|Hpath]; [done|].
  by destruct (path_returned_inv _ _ _ _ _ _ Hres Hpath) as [? _].
Qed.

End HostPath.

(** ** The queries on the sample stores and clients *)

Section Runs.

Import Sample.

#[local] Abbreviation pvcStore := (mapStore claims).
#[local] Abbreviation pvStore := (mapStore volumes).
#[local] Abbreviation oddStore := (mapStore {[ "v1" := other_object "not a volume" ]}).
#[local] Abbreviation client := (mapClient {[ ("ns", "c2") := c2 ]}).
#[local] Abbreviation notFound := (StatusError "NotFound" "c9").

(** C1. On a claim store that holds an object of another type under
    "ns/odd", the host-path query returns no type-mismatch error: the claim
    pointer stays nil, the query goes on to read the phase through it, and
    the run-time panics there; likewise on a volume store that holds an
    object of another type under the name the bound claim gives, where the
    query goes on to read the host-path source through the nil volume
    pointer.  On the same claim store [IsPVCBlockFromStore] returns the
    "this is not a PVC!" error. *)
Theorem type_mismatch_reaches_nil_dereference :
  GetPVCHostPathFromStore pvcStore pvStore "ns" "odd"
  = ([Store_GetByKey pvcStore "ns/odd"], Panics_nil_dereference)
  ∧ GetPVCHostPathFromStore pvcStore oddStore "ns" "c1"
    = ([Store_GetByKey pvcStore "ns/c1"; Store_GetByKey oddStore "v1"],
       Panics_nil_dereference)
  ∧ IsPVCBlockFromStore pvcStore "ns" "odd"
    = ([Store_GetByKey pvcStore "ns/odd"],
       Returns (None, false, false,
                Some (errorString "this is not a PVC! not a claim"))).
Proof.
  split_and!.
  - by refine (claim_type_mismatch pvcStore pvStore "ns" "odd"
                 (other_object "not a claim") _ _).
  - by refine (volume_type_mismatch pvcStore oddStore "ns" "c1" c1 _ _ _
                 (other_object "not a volume") _ _).
  - reflexivity.
Qed.

Lemma block_queries_agree_witness :
  ∃ isBlock,
    isPVCBlock (Some c2) = ([], Returns isBlock)
    ∧ result (IsPVCBlockFromStore pvcStore "ns" "c2")
      = Returns (Some c2, true, isBlock, None)
    ∧ result (IsPVCBlockFromClient client "ns" "c2")
      = Returns (Some c2, true, isBlock, None).
Proof. apply (block_queries_agree pvcStore client "ns" "c2" c2); reflexivity. Defined.

Lemma host_path_resolution_witness :
  result (GetPVCHostPathFromStore pvcStore pvStore "ns" "c1")
  = Returns ("/data/x", None).
Proof.
  destruct (host_path_resolution pvcStore pvStore "ns" "c1" c1 eq_refl)
    as [Hfound _].
  apply (Hfound (hostPathVolume "/data/x") {| Path := "/data/x" |});
    [reflexivity | discriminate | reflexivity | reflexivity].
Defined.

Lemma absence_is_hard_failure_witness :
  result (GetPVCHostPathFromStore pvcStore pvStore "ns" "c3")
  = Returns ("", Some (errorString "Unable to find PVC ns/c3"))
  ∧ result (GetPVCHostPathFromStore pvcStore (brokenStore (errorString "store closed"))
              "ns" "c1")
    = Returns ("", Some (errorString "store closed")).
Proof.
  split.
  - destruct (absence_is_hard_failure pvcStore pvStore "ns" "c3") as [Hclaim _].
    apply (Hclaim nil_interface false None); [reflexivity | right; reflexivity].
  - destruct (absence_is_hard_failure pvcStore
                (brokenStore (errorString "store closed")) "ns" "c1")
      as [_ Hvolume].
    apply (Hvolume c1 nil_interface false (Some (errorString "store closed")));
      [reflexivity | reflexivity | discriminate | reflexivity | left; discriminate].
Defined.

Lemma IsSharedPVCFromClient_propagates_error_witness :
  IsNotFound (Some notFound) = true
  ∧ IsSharedPVCFromClient (failingClient notFound) "ns" "c9"
    = ([Client_Get (failingClient notFound) "ns" "c9"],
       Returns (None, false, Some notFound)).
Proof.
  split; [reflexivity|].
  apply (IsSharedPVCFromClient_propagates_error
           (failingClient notFound) "ns" "c9" None notFound).
  reflexivity.
Defined.

Lemma absent_claim_is_benign_witness :
  IsPVCBlockFromStore pvcStore "ns" "c3"
  = ([Store_GetByKey pvcStore "ns/c3"], Returns (None, false, false, None))
  ∧ IsPVCBlockFromClient client "ns" "c3"
    = ([Client_Get client "ns" "c3"], Returns (None, false, false, None)).
Proof.
  destruct (absent_claim_is_benign "ns" "c3") as [Hstore Hclient]. split.
  - apply (Hstore pvcStore nil_interface). reflexivity.
  - apply (Hclient client None (Some (StatusError "NotFound" "c3")));
      reflexivity.
Defined.

Lemma IsPVCBlockFromStore_type_mismatch_witness :
  IsPVCBlockFromStore pvcStore "ns" "odd"
  = ([Store_GetByKey pvcStore "ns/odd"],
     Returns (None, false, false,
              Some (errorString "this is not a PVC! not a claim"))).
Proof.
  apply (IsPVCBlockFromStore_type_mismatch pvcStore "ns" "odd"
           (other_object "not a claim")); [reflexivity | discriminate].
Defined.

Lemma error_implies_empty_path_witness :
  result (GetPVCHostPathFromStore pvcStore pvStore "ns" "c3")
  = Returns ("", Some (errorString "Unable to find PVC ns/c3"))
  ∧ "" = "".
Proof.
  split; [reflexivity|].
  apply (error_implies_empty_path pvcStore pvStore "ns" "c3" ""
           (errorString "Unable to find PVC ns/c3")).
  reflexivity.
Defined.

End Runs.

(** ** What the results of the locating queries guarantee to a caller *)

Section Results.

Context `{GoLibs}.

Implicit Types (store : Store) (client : KubevirtClient).
Implicit Types (namespace claimName : string) (obj : object).
Implicit Types (c : PersistentVolumeClaim) (pvc : option PersistentVolumeClaim).
Implicit Types (err : option error) (e : error).

(** X1. Whatever the store answers, a result of [IsPVCBlockFromStore] is
    coherent: an error comes with a nil claim and isBlockDevice = false; a
    claim comes with exists = true and no error, is the record the store
    holds under the key, and isBlockDevice tells whether its volume mode
    is Block; isBlockDevice = true comes only with such a claim. *)
Theorem IsPVCBlockFromStore_result_coherent
    store namespace claimName pvc found isBlock err :
  result (IsPVCBlockFromStore store namespace claimName)
  = Returns (pvc, found, isBlock, err) →
  (err ≠ None → pvc = None ∧ isBlock = false)
  ∧ (∀ c, pvc = Some c →
       found = true ∧ err = None
       ∧ GetByKey store (namespace +:+ "/" +:+ claimName)
         = (ptr_PersistentVolumeClaim (Some c), true, None)
       ∧ isBlock = bool_decide (VolumeMode (pvc_Spec c) = Some PersistentVolumeBlock))
  ∧ (isBlock = true →
       ∃ c, pvc = Some c
            ∧ VolumeMode (pvc_Spec c) = Some PersistentVolumeBlock).
Proof.
  unfold IsPVCBlockFromStore, call_GetByKey, result. simpl.
  destruct (GetByKey store _) as [[obj found'] [e'|]] eqn:Hget; simpl.
  { intros [= <- <- <- <-]. split_and!; [done | done | done]. }
  destruct found'; simpl; [|intros [= <- <- <- <-]; by split_and!].
  destruct obj as [|[c'|]|pv|d]; simpl; try done;
    try (intros [= <- <- <- <-]; by split_and!).
  rewrite VolumeMode_is_Block. intros [= <- <- <- <-]. split_and!.
  - done.
  - by intros c [= <-].
  - intros Hblock%bool_decide_eq_true_1. by exists c'.
Qed.

(** X2. [IsPVCBlockFromStore] panics in one case only: the store holds,
    under the key and without error, a claim pointer that is nil. *)
Theorem IsPVCBlockFromStore_panics_iff store namespace claimName :
  result (IsPVCBlockFromStore store namespace claimName) = Panics_nil_dereference
  ↔ GetByKey store (namespace +:+ "/" +:+ claimName)
    = (ptr_PersistentVolumeClaim None, true, None).
Proof.
  unfold IsPVCBlockFromStore, call_GetByKey, result. simpl.
  destruct (GetByKey store _) as [[obj found] [e|]]; simpl; [by split|].
  destruct found; simpl; [|by split].
  destruct obj as [|[c|]|pv|d]; simpl; by split.
Qed.

(** X3. A lookup error wins over everything else in [IsPVCBlockFromStore]:
    the error is handed back with a nil claim, isBlockDevice = false and
    the exists flag exactly as the store reported it, true included, and
    the object is not inspected. *)
Theorem IsPVCBlockFromStore_error_keeps_exists
    store namespace claimName obj found e :
  GetByKey store (namespace +:+ "/" +:+ claimName) = (obj, found, Some e) →
  IsPVCBlockFromStore store namespace claimName
  = ([Store_GetByKey store (namespace +:+ "/" +:+ claimName)],
     Returns (None, found, false, Some e)).
Proof.
  intros Hget. unfold IsPVCBlockFromStore, call_GetByKey. simpl. by rewrite Hget.
Qed.

(** X4. Whatever the client answers, a result of [IsPVCBlockFromClient] is
    coherent: exists = true exactly when a claim is returned, and then
    there is no error, the claim is the one fetched and isBlockDevice
    tells whether its volume mode is Block; an error is the fetch error,
    one that [IsNotFound] does not recognise, and comes with a nil claim,
    exists = false and isBlockDevice = false. *)
Theorem IsPVCBlockFromClient_result_coherent
    client namespace claimName pvc found isBlock err :
  result (IsPVCBlockFromClient client namespace claimName)
  = Returns (pvc, found, isBlock, err) →
  (found = true ↔ pvc ≠ None)
  ∧ (∀ c, pvc = Some c →
       err = None
       ∧ PersistentVolumeClaims_Get client namespace claimName = (Some c, None)
       ∧ isBlock = bool_decide (VolumeMode (pvc_Spec c) = Some PersistentVolumeBlock))
  ∧ (∀ e, err = Some e →
       pvc = None ∧ found = false ∧ isBlock = false
       ∧ IsNotFound (Some e) = false
       ∧ (PersistentVolumeClaims_Get client namespace claimName).2 = Some e)
  ∧ (pvc = None → isBlock = false).
Proof.
  unfold IsPVCBlockFromClient, call_Get, result. simpl.
  destruct (PersistentVolumeClaims_Get client _ _) as [p [e'|]] eqn:Hget; simpl.
  - destruct (IsNotFound (Some e')) eqn:Hnf; simpl;
      intros [= <- <- <- <-]; repeat split; intros; by simplify_eq.
  - rewrite IsNotFound_nil. simpl. destruct p as [c'|]; simpl; [|done].
    rewrite VolumeMode_is_Block.
    intros [= <- <- <- <-]; repeat split; intros; by simplify_eq.
Qed.

(** X5. A fetch error that [IsNotFound] does not recognise is returned by
    [IsPVCBlockFromClient] with a nil claim, whatever claim the client
    handed back with it, exists = false and isBlockDevice = false. *)
Theorem IsPVCBlockFromClient_propagates_other_error
    client namespace claimName pvc e :
  PersistentVolumeClaims_Get client namespace claimName = (pvc, Some e) →
  IsNotFound (Some e) = false →
  IsPVCBlockFromClient client namespace claimName
  = ([Client_Get client namespace claimName], Returns (None, false, false, Some e)).
Proof.
  intros Hget Hnf. unfold IsPVCBlockFromClient, call_Get. simpl. rewrite Hget.
  by rewrite Hnf.
Qed.

(** X6. When the fetch succeeds with a claim record, [IsSharedPVCFromClient]
    returns that record, a nil error and isShared telling whether
    ReadWriteMany is among its access modes, after the one fetch. *)
Theorem IsSharedPVCFromClient_found client namespace claimName c :
  PersistentVolumeClaims_Get client namespace claimName = (Some c, None) →
  IsSharedPVCFromClient client namespace claimName
  = ([Client_Get client namespace claimName],
     Returns (Some c, bool_decide (ReadWriteMany ∈ AccessModes (pvc_Spec c)), None)).
Proof.
  intros Hget. unfold IsSharedPVCFromClient, call_Get. simpl. rewrite Hget. simpl.
  do 4 f_equal. apply eq_true_iff_eq.
  by rewrite range_AccessModes_spec, bool_decide_eq_true.
Qed.

(** X7. Whatever the client answers, [IsSharedPVCFromClient] hands back the
    claim pointer and the error exactly as fetched, and isShared = true
    only when the fetch had no error and the claim lists ReadWriteMany. *)
Theorem IsSharedPVCFromClient_result_coherent
    client namespace claimName pvc isShared err :
  result (IsSharedPVCFromClient client namespace claimName)
  = Returns (pvc, isShared, err) →
  PersistentVolumeClaims_Get client namespace claimName = (pvc, err)
  ∧ (isShared = true →
       err = None
       ∧ ∃ c, pvc = Some c ∧ ReadWriteMany ∈ AccessModes (pvc_Spec c)).
Proof.
  unfold IsSharedPVCFromClient, call_Get, result. simpl.
  destruct (PersistentVolumeClaims_Get client _ _) as [p [e'|]] eqn:Hget; simpl.
  - intros [= <- <- <-]. by split.
  - destruct p as [c'|]; simpl; [|done].
    intros [= <- <- <-]. split; [done|].
    intros Hshared%range_AccessModes_spec. split; [done|]. by exists c'.
Qed.

(** X8. The two client queries panic in one case only: the client hands
    back a nil claim with a nil error. *)
Theorem client_queries_panic_iff client namespace claimName :
  (result (IsPVCBlockFromClient client namespace claimName) = Panics_nil_dereference
   ↔ PersistentVolumeClaims_Get client namespace claimName = (None, None))
  ∧ (result (IsSharedPVCFromClient client namespace claimName) = Panics_nil_dereference
     ↔ PersistentVolumeClaims_Get client namespace claimName = (None, None)).
Proof.
  unfold IsPVCBlockFromClient, IsSharedPVCFromClient, call_Get, result. simpl.
  destruct (PersistentVolumeClaims_Get client _ _) as [p [e'|]]; simpl.
  - destruct (IsNotFound (Some e')); simpl; by split.
  - rewrite IsNotFound_nil. simpl. destruct p as [c'|]; simpl; by split.
Qed.

(** X9. The answer of [IsPVCShared] does not depend on the order of the
    access modes, and over two lists joined it is the disjunction of the
    answers over each. *)
Theorem IsPVCShared_order_independent (c c' : PersistentVolumeClaim) :
  (AccessModes (pvc_Spec c) ≡ₚ AccessModes (pvc_Spec c') →
   IsPVCShared (Some c) = IsPVCShared (Some c'))
  ∧ (∀ front back,
       AccessModes (pvc_Spec c) = front ++ back →
       IsPVCShared (Some c)
       = ([], Returns (range_AccessModes front || range_AccessModes back))).
Proof.
  unfold IsPVCShared; simpl. unfold mret, go_ret. split.
  - intros Hperm. by rewrite (range_AccessModes_Permutation _ _ Hperm).
  - intros front back ->. do 2 f_equal. apply eq_true_iff_eq.
    rewrite orb_true_iff, !range_AccessModes_spec, elem_of_app. done.
Qed.

End Results.

(** ** Every way the host-path query can end *)

Section HostPathOutcomes.

Context `{GoLibs}.

Implicit Types (pvcStore pvStore store : Store).
Implicit Types (namespace claimName : string) (obj : object).
Implicit Types (c : PersistentVolumeClaim) (v : PersistentVolume).
Implicit Types (err : option error) (e : error).

(** The claim lookup found a claim record that is Bound and names a volume:
    the one case in which the query goes on to the volume store. *)
#[local] Abbreviation bound_claim pvcStore namespace claimName c :=
  (GetByKey pvcStore (namespace +:+ "/" +:+ claimName)
   = (ptr_PersistentVolumeClaim (Some c), true, None)
   ∧ Phase (pvc_Status c) = ClaimBound
   ∧ VolumeName (pvc_Spec c) ≠ "").

Ltac split_claim_lookup pvcStore Hpvc :=
  unfold GetPVCHostPathFromStore, call_GetByKey, result, trace; simpl;
  destruct (GetByKey pvcStore _) as [[?obj [|]] [?e|]] eqn:Hpvc; simpl.

Ltac split_phase c Hphase Hname :=
  destruct (bool_decide (Phase (pvc_Status c) = ClaimBound)) eqn:Hphase;
  [apply bool_decide_eq_true_1 in Hphase | apply bool_decide_eq_false_1 in Hphase];
  simpl;
  [destruct (bool_decide (VolumeName (pvc_Spec c) ≠ "")) eqn:Hname;
   [apply bool_decide_eq_true_1 in Hname | apply bool_decide_eq_false_1 in Hname];
   simpl|].

(** X10. The host-path query returns an error in these cases and no other:
    the claim lookup failed (its error is returned); the claim key is
    missing ("Unable to find PVC ..."); or the claim is Bound to a named
    volume and the volume lookup failed (its error is returned) or the
    volume name is missing ("Unable to find PV ...").  The path is then
    empty. *)
Theorem host_path_error_iff pvcStore pvStore namespace claimName path e :
  result (GetPVCHostPathFromStore pvcStore pvStore namespace claimName)
  = Returns (path, Some e)
  ↔ path = ""
    ∧ ((∃ obj found,
          GetByKey pvcStore (namespace +:+ "/" +:+ claimName) = (obj, found, Some e))
       ∨ ((∃ obj,
             GetByKey pvcStore (namespace +:+ "/" +:+ claimName) = (obj, false, None))
          ∧ e = Errorf ("Unable to find PVC " +:+ namespace +:+ "/" +:+ claimName))
       ∨ (∃ c, bound_claim pvcStore namespace claimName c
               ∧ ((∃ obj found,
                     GetByKey pvStore (VolumeName (pvc_Spec c)) = (obj, found, Some e))
                  ∨ ((∃ obj,
                        GetByKey pvStore (VolumeName (pvc_Spec c)) = (obj, false, None))
                     ∧ e = Errorf ("Unable to find PV " +:+ VolumeName (pvc_Spec c)))))).
Proof.
  split.
  - split_claim_lookup pvcStore Hpvc.
    + intros [= <- <-]. split; [done|]. left. eauto.
    + destruct obj as [|[c|]|pv|d]; simpl; try done.
      split_phase c Hphase Hname; try done.
      destruct (GetByKey pvStore _) as [[obj2 [|]] [e2|]] eqn:Hpv; simpl.
      * intros [= <- <-]. split; [done|]. right. right. exists c.
        split; [done|]. left. eauto.
      * destruct obj2 as [|pvc|[v|]|d]; simpl; try done.
        by destruct (HostPath (pv_Spec v)).
      * intros [= <- <-]. split; [done|]. right. right. exists c.
        split; [done|]. left. eauto.
      * intros [= <- <-]. split; [done|]. right. right. exists c.
        split; [done|]. right. eauto.
    + intros [= <- <-]. split; [done|]. left. eauto.
    + intros [= <- <-]. split; [done|]. right. left. eauto.
  - intros [-> [(obj & found & Hpvc) | [[(obj & Hpvc) ->] | (c & (Hpvc & Hphase & Hname) & Hvol)]]].
    + by rewrite (claim_lookup_error _ pvStore _ _ _ _ _ Hpvc).
    + by rewrite (claim_missing _ pvStore _ _ _ Hpvc).
    + destruct Hvol as [(obj & found & Hpv) | [(obj & Hpv) ->]].
      * by rewrite (volume_lookup_error _ _ _ _ _ Hpvc Hphase Hname _ _ _ Hpv).
      * by rewrite (volume_missing _ _ _ _ _ Hpvc Hphase Hname _ Hpv).
Qed.

(** Where a panic of the host-path query comes from. *)
Lemma host_path_panic_inv pvcStore pvStore namespace claimName :
  result (GetPVCHostPathFromStore pvcStore pvStore namespace claimName)
  = Panics_nil_dereference →
  (∃ obj,
     GetByKey pvcStore (namespace +:+ "/" +:+ claimName) = (obj, true, None)
     ∧ ∀ c, obj ≠ ptr_PersistentVolumeClaim (Some c))
  ∨ (∃ c obj,
       bound_claim pvcStore namespace claimName c
       ∧ GetByKey pvStore (VolumeName (pvc_Spec c)) = (obj, true, None)
       ∧ ∀ v, obj ≠ ptr_PersistentVolume (Some v)).
Proof.
  split_claim_lookup pvcStore Hpvc; try done.
  destruct obj as [|[c|]|pv|d]; simpl;
    try (intros _; left; eexists; split; [done | by intros ?]).
  split_phase c Hphase Hname; try done.
  destruct (GetByKey pvStore _) as [[obj2 [|]] [e2|]] eqn:Hpv; simpl; try done.
  destruct obj2 as [|pvc|[v|]|d]; simpl;
    try (intros _; right; exists c; eexists; split_and!; [done..|by intros ?]).
  by destruct (HostPath (pv_Spec v)).
Qed.

(** X11. The host-path query panics in these cases and no other: the claim
    lookup succeeds with an object that is not a non-nil claim pointer; or
    the claim is Bound to a named volume and the volume lookup succeeds
    with an object that is not a non-nil volume pointer. *)
Theorem host_path_panics_iff pvcStore pvStore namespace claimName :
  result (GetPVCHostPathFromStore pvcStore pvStore namespace claimName)
  = Panics_nil_dereference
  ↔ (∃ obj,
       GetByKey pvcStore (namespace +:+ "/" +:+ claimName) = (obj, true, None)
       ∧ ∀ c, obj ≠ ptr_PersistentVolumeClaim (Some c))
    ∨ (∃ c obj,
         bound_claim pvcStore namespace claimName c
         ∧ GetByKey pvStore (VolumeName (pvc_Spec c)) = (obj, true, None)
         ∧ ∀ v, obj ≠ ptr_PersistentVolume (Some v)).
Proof.
  split.
  - apply host_path_panic_inv.
  - intros [(obj & Hpvc & Hty) | (c & obj & (Hpvc & Hphase & Hname) & Hpv & Hty)].
    + destruct obj as [|[c|]|pv|d].
      * by rewrite (claim_type_mismatch _ pvStore _ _ _ Hpvc).
      * by destruct (Hty c).
      * by rewrite (claim_nil_pointer _ pvStore _ _ Hpvc).
      * by rewrite (claim_type_mismatch _ pvStore _ _ _ Hpvc).
      * by rewrite (claim_type_mismatch _ pvStore _ _ _ Hpvc).
    + unfold GetPVCHostPathFromStore, call_GetByKey, result. simpl.
      rewrite Hpvc. simpl. rewrite Hphase. simpl.
      rewrite (bool_decide_eq_true_2 _ Hname). simpl. rewrite Hpv. simpl.
      destruct obj as [|pvc|[v|]|d]; simpl; try done. by destruct (Hty v).
Qed.

(** X12. On stores that keep their contract, the claim store handing out
    only claim records and the volume store only volume records, the
    host-path query always returns. *)
Theorem host_path_returns_on_typed_stores pvcStore pvStore namespace claimName :
  (∀ key obj, GetByKey pvcStore key = (obj, true, None) →
     ∃ c, obj = ptr_PersistentVolumeClaim (Some c)) →
  (∀ key obj, GetByKey pvStore key = (obj, true, None) →
     ∃ v, obj = ptr_PersistentVolume (Some v)) →
  ∃ path err,
    result (GetPVCHostPathFromStore pvcStore pvStore namespace claimName)
    = Returns (path, err).
Proof.
  intros Hclaims Hvolumes.
  destruct (result (GetPVCHostPathFromStore pvcStore pvStore namespace claimName))
    as [[path err]|] eqn:Hres; [by eauto|].
  apply host_path_panic_inv in Hres
    as [(obj & Hpvc & Hty) | (c & obj & _ & Hpv & Hty)].
  - destruct (Hclaims _ _ Hpvc) as [c ->]. by destruct (Hty c).
  - destruct (Hvolumes _ _ Hpv) as [v ->]. by destruct (Hty v).
Qed.

(** X13. The host-path query looks up the claim store first and once; it
    looks up the volume store, once and under the bound-volume-name, when
    the claim found is Bound to a named volume, and makes no other call. *)
Theorem host_path_lookups pvcStore pvStore namespace claimName :
  (∃ c, bound_claim pvcStore namespace claimName c
        ∧ trace (GetPVCHostPathFromStore pvcStore pvStore namespace claimName)
          = [Store_GetByKey pvcStore (namespace +:+ "/" +:+ claimName);
             Store_GetByKey pvStore (VolumeName (pvc_Spec c))])
  ∨ ((∀ c, ¬ bound_claim pvcStore namespace claimName c)
     ∧ trace (GetPVCHostPathFromStore pvcStore pvStore namespace claimName)
       = [Store_GetByKey pvcStore (namespace +:+ "/" +:+ claimName)]).
Proof.
  split_claim_lookup pvcStore Hpvc;
    try (right; split; [by intros c [[=] _] | done]).
  destruct obj as [|[c|]|pv|d]; simpl;
    try (right; split; [by intros c [[=] _] | done]).
  split_phase c Hphase Hname.
  - left. exists c. split; [done|].
    destruct (GetByKey pvStore _) as [[obj2 [|]] [e2|]]; simpl; try done.
    destruct obj2 as [|pvc|[v|]|d]; simpl; try done.
    by destruct (HostPath (pv_Spec v)).
  - right. split; [|done]. intros c' ([= <-] & _ & Hname'). done.
  - right. split; [|done]. intros c' ([= <-] & Hphase' & _). done.
Qed.

End HostPathOutcomes.

(** ** The store-backed queries side by side *)

Section StoreQueries.

Context `{GoLibs}.

Implicit Types (store pvStore : Store).
Implicit Types (namespace claimName : string) (obj : object).
Implicit Types (c : PersistentVolumeClaim) (err : option error).

(** When [IsPVCBlockFromStore] reports a benign absence, the store said
    that the key is missing. *)
Lemma benign_absence_inv store namespace claimName :
  result (IsPVCBlockFromStore store namespace claimName)
  = Returns (None, false, false, None) →
  ∃ obj, GetByKey store (namespace +:+ "/" +:+ claimName) = (obj, false, None).
Proof.
  unfold IsPVCBlockFromStore, call_GetByKey, result. simpl.
  destruct (GetByKey store _) as [[obj [|]] [e|]]; simpl; try done.
  - by destruct obj as [|[c|]|pv|d].
  - intros _. by exists obj.
Qed.

(** X14. The store-backed queries see the namespace and the name only
    through the key namespace + "/" + name: two pairs that join to the same
    key get the same answer, error text included. *)
Theorem store_queries_depend_on_key
    store pvStore namespace claimName namespace' claimName' :
  namespace +:+ "/" +:+ claimName = namespace' +:+ "/" +:+ claimName' →
  IsPVCBlockFromStore store namespace claimName
  = IsPVCBlockFromStore store namespace' claimName'
  ∧ GetPVCHostPathFromStore store pvStore namespace claimName
    = GetPVCHostPathFromStore store pvStore namespace' claimName'.
Proof.
  intros Hkey. unfold IsPVCBlockFromStore, GetPVCHostPathFromStore.
  by rewrite Hkey.
Qed.

(** X15. The same missing claim is read in two ways: whenever
    [IsPVCBlockFromStore] answers (nil, false, false, nil) on a store, the
    host-path query on that claim store returns the
    "Unable to find PVC <namespace>/<name>" error, after the claim lookup
    alone and whatever the volume store is. *)
Theorem benign_absence_fails_host_path store pvStore namespace claimName :
  result (IsPVCBlockFromStore store namespace claimName)
  = Returns (None, false, false, None) →
  GetPVCHostPathFromStore store pvStore namespace claimName
  = ([Store_GetByKey store (namespace +:+ "/" +:+ claimName)],
     Returns ("", Some (Errorf ("Unable to find PVC " +:+ namespace +:+ "/"
                                  +:+ claimName)))).
Proof.
  intros [obj Hget]%benign_absence_inv. by apply claim_missing with obj.
Qed.

(** X16. Whenever the host-path query returns without error, the block-mode
    query on the same claim store finds the claim: it returns a claim
    record with exists = true and no error; and when the path returned is
    not empty, that claim is Bound to a named volume. *)
Theorem host_path_success_means_claim_found
    store pvStore namespace claimName path :
  result (GetPVCHostPathFromStore store pvStore namespace claimName)
  = Returns (path, None) →
  ∃ c,
    result (IsPVCBlockFromStore store namespace claimName)
    = Returns (Some c, true,
               bool_decide (VolumeMode (pvc_Spec c) = Some PersistentVolumeBlock),
               None)
    ∧ (path ≠ "" →
       Phase (pvc_Status c) = ClaimBound ∧ VolumeName (pvc_Spec c) ≠ "").
Proof.
  intros Hres.
  assert (∃ c, GetByKey store (namespace +:+ "/" +:+ claimName)
               = (ptr_PersistentVolumeClaim (Some c), true, None)) as [c Hget].
  { revert Hres. unfold GetPVCHostPathFromStore, call_GetByKey, result. simpl.
    destruct (GetByKey store _) as [[obj [|]] [e|]]; simpl; try done.
    destruct obj as [|[c|]|pv|d]; simpl; try done. intros _. by exists c. }
  exists c. split.
  - by rewrite (IsPVCBlockFromStore_found _ _ _ _ Hget).
  - intros Hpath.
    destruct (path_returned_inv _ _ _ _ _ _ Hres Hpath)
      as (_ & c' & v & hostPath & Hget' & Hphase & Hname & _).
    rewrite Hget in Hget'. by injection Hget' as <-.
Qed.

End StoreQueries.

(** ** Further runs on the sample stores and clients *)

Section MoreRuns.

Import Sample.

#[local] Abbreviation pvcStore := (mapStore claims).
#[local] Abbreviation pvStore := (mapStore volumes).
#[local] Abbreviation typedStore :=
  (mapStore {[ "ns/c1" := ptr_PersistentVolumeClaim (Some c1) ]}).
#[local] Abbreviation client := (mapClient {[ ("ns", "c2") := c2 ]}).
#[local] Abbreviation timeout := (StatusError "Timeout" "c2").
#[local] Abbreviation closed := (errorString "store closed").

(** A store that reports an error together with exists = true. *)
#[local] Abbreviation staleStore :=
  (Build_Store (H := libs)
     (λ _, (ptr_PersistentVolumeClaim (Some c2), true, Some closed))).

Lemma IsPVCBlockFromStore_result_coherent_witness :
  ∃ c, Some c2 = Some c ∧ VolumeMode (pvc_Spec c) = Some PersistentVolumeBlock.
Proof.
  destruct (IsPVCBlockFromStore_result_coherent pvcStore "ns" "c2"
              (Some c2) true true None eq_refl) as (_ & _ & Hblock).
  apply Hblock. reflexivity.
Defined.

Lemma IsPVCBlockFromStore_error_keeps_exists_witness :
  IsPVCBlockFromStore staleStore "ns" "c2"
  = ([Store_GetByKey staleStore "ns/c2"], Returns (None, true, false, Some closed)).
Proof.
  apply (IsPVCBlockFromStore_error_keeps_exists staleStore "ns" "c2"
           (ptr_PersistentVolumeClaim (Some c2)) true closed).
  reflexivity.
Defined.

Lemma IsPVCBlockFromClient_result_coherent_witness :
  true = true ↔ Some c2 ≠ None.
Proof.
  destruct (IsPVCBlockFromClient_result_coherent client "ns" "c2"
              (Some c2) true true None) as (Hfound & _);
    [reflexivity | exact Hfound].
Defined.

Lemma IsPVCBlockFromClient_propagates_other_error_witness :
  IsPVCBlockFromClient (failingClient timeout) "ns" "c2"
  = ([Client_Get (failingClient timeout) "ns" "c2"],
     Returns (None, false, false, Some timeout)).
Proof.
  apply (IsPVCBlockFromClient_propagates_other_error
           (failingClient timeout) "ns" "c2" None timeout); reflexivity.
Defined.

Lemma IsSharedPVCFromClient_found_witness :
  IsSharedPVCFromClient client "ns" "c2"
  = ([Client_Get client "ns" "c2"], Returns (Some c2, true, None)).
Proof.
  apply (IsSharedPVCFromClient_found client "ns" "c2" c2). reflexivity.
Defined.

Lemma IsSharedPVCFromClient_result_coherent_witness :
  PersistentVolumeClaims_Get client "ns" "c2" = (Some c2, None)
  ∧ (true = true →
     @None sample_error = None
     ∧ ∃ c, Some c2 = Some c ∧ ReadWriteMany ∈ AccessModes (pvc_Spec c)).
Proof.
  apply (IsSharedPVCFromClient_result_coherent client "ns" "c2" (Some c2) true None).
  reflexivity.
Defined.

Lemma host_path_returns_on_typed_stores_witness :
  ∃ path err,
    result (GetPVCHostPathFromStore typedStore pvStore "ns" "c1")
    = Returns (path, err).
Proof.
  apply (host_path_returns_on_typed_stores typedStore pvStore "ns" "c1").
  - intros key obj. simpl. destruct (decide (key = "ns/c1")) as [->|Hne].
    + rewrite lookup_singleton_eq. intros [= <-]. by eexists.
    + rewrite lookup_singleton_ne by done. discriminate.
  - intros key obj. simpl. destruct (decide (key = "v1")) as [->|Hne].
    + unfold volumes. rewrite lookup_singleton_eq. intros [= <-]. by eexists.
    + unfold volumes. rewrite lookup_singleton_ne by done. discriminate.
Defined.

Lemma store_queries_depend_on_key_witness :
  IsPVCBlockFromStore pvcStore "ns/team" "c1"
  = IsPVCBlockFromStore pvcStore "ns" "team/c1"
  ∧ GetPVCHostPathFromStore pvcStore pvStore "ns/team" "c1"
    = GetPVCHostPathFromStore pvcStore pvStore "ns" "team/c1".
Proof.
  apply (store_queries_depend_on_key pvcStore pvStore "ns/team" "c1" "ns" "team/c1").
  reflexivity.
Defined.

Lemma benign_absence_fails_host_path_witness :
  GetPVCHostPathFromStore pvcStore pvStore "ns" "c3"
  = ([Store_GetByKey pvcStore "ns/c3"],
     Returns ("", Some (errorString "Unable to find PVC ns/c3"))).
Proof.
  apply (benign_absence_fails_host_path pvcStore pvStore "ns" "c3"). reflexivity.
Defined.

Lemma host_path_success_means_claim_found_witness :
  ∃ c,
    result (IsPVCBlockFromStore pvcStore "ns" "c1")
    = Returns (Some c, true,
               bool_decide (VolumeMode (pvc_Spec c) = Some PersistentVolumeBlock),
               None)
    ∧ ("/data/x" ≠ "" →
       Phase (pvc_Status c) = ClaimBound ∧ VolumeName (pvc_Spec c) ≠ "").
Proof.
  apply (host_path_success_means_claim_found pvcStore pvStore "ns" "c1" "/data/x").
  reflexivity.
Defined.

End MoreRuns.
